(** * Failure support for libcore (src/libcore/failure.rs)

    A shallow embedding of the failure entry points of libcore: the
    [fail_] and [fail_bounds_check] lang items in their two build
    configurations (current, with length-prefixed [&'static str]
    locations, and stage0, with null-terminated [*u8] locations), and the
    public [begin_unwind] wrapper that forwards to the link-time hook.

    Effects are modelled by a small trace monad: a computation either
    completes with a value ([Done], the function returns to its caller) or
    stops for good ([Stopped]); in both cases it leaves the list of the
    observable events it produced (calls into the Dispatch Hook, calls to
    the external link-time symbol, the processor abort). *)

From Stdlib Require Import List Strings.String Strings.Ascii Strings.Byte Decimal NArith Lia.
Import ListNotations.
Open Scope string_scope.

(** ** Static memory and string slices *)

(** The program's static data, addressed from 0. *)
Definition mem := list byte.

(** A [&'static str]: a length-prefixed view of static memory. *)
Record str := mk_str { sptr : nat; slen : nat }.

(** The text a slice denotes (its bytes, read as characters). *)
Definition as_string (m : mem) (s : str) : string :=
  string_of_list_byte (firstn (slen s) (skipn (sptr s) m)).

(** ** The legacy location conversion *)

(** Number of bytes before the first zero byte; [None] when the memory
    ends first (the unterminated case, undefined at this layer). *)
Fixpoint scan_to_nul (bs : list byte) : option nat :=
  match bs with
  | [] => None
  | b :: r => if Byte.eqb b x00 then Some 0 else option_map S (scan_to_nul r)
  end.

(** Modelled from the spec: [str::raw::c_str_to_static_slice] (libcore's
    [str] module, not under src/). Section 4.2: it scans forward from the
    pointer until a zero byte is found and builds a length-prefixed view
    over the same memory (no copy). No bound is put on the scan; running
    off the end of memory is undefined behaviour, [None] here. *)
Definition c_str_to_static_slice (m : mem) (p : nat) : option str :=
  option_map (fun n => mk_str p n) (scan_to_nul (skipn p m)).

(** ** The Message Formatter *)

(** An argument of [format_args!]: a [&str] or a [uint]. *)
Inductive fmt_arg :=
| ArgStr (s : str)
| ArgUint (n : N).

(** A piece of a parsed template: literal text, or the next argument ([{}]). *)
Inductive piece :=
| PLit (s : string)
| PArg.

(** [fmt::Arguments]: the parsed template with the argument references; it
    is what the hook receives, rendered only when the hook writes it. *)
Record fmt_arguments := mk_arguments { fa_pieces : list piece; fa_args : list fmt_arg }.

Definition flush (acc : string) (ps : list piece) : list piece :=
  if String.eqb acc "" then ps else PLit acc :: ps.

(** Modelled from the spec: the template parser of [format_args!] (a
    compiler built-in). [{}] is an argument slot, [{{] and [}}] stand for
    literal braces, every other character is literal text. *)
Fixpoint parse_template (s : string) (acc : string) : list piece :=
  match s with
  | EmptyString => flush acc []
  | String c r =>
      if Ascii.eqb c "{"%char then
        match r with
        | String c2 r2 =>
            if Ascii.eqb c2 "}"%char then flush acc (PArg :: parse_template r2 "")
            else if Ascii.eqb c2 "{"%char then parse_template r2 (acc ++ "{")
            else parse_template r (acc ++ String c "")
        | EmptyString => parse_template r (acc ++ String c "")
        end
      else if Ascii.eqb c "}"%char then
        match r with
        | String c2 r2 =>
            if Ascii.eqb c2 "}"%char then parse_template r2 (acc ++ "}")
            else parse_template r (acc ++ String c "")
        | EmptyString => parse_template r (acc ++ String c "")
        end
      else parse_template r (acc ++ String c "")
  end.

Definition digit_char (d : nat) : ascii := ascii_of_nat (48 + d).

(** Decimal digits of a [Decimal.uint], most significant first. *)
Fixpoint string_of_uint (u : Decimal.uint) : string :=
  match u with
  | Decimal.Nil => ""
  | Decimal.D0 u => String (digit_char 0) (string_of_uint u)
  | Decimal.D1 u => String (digit_char 1) (string_of_uint u)
  | Decimal.D2 u => String (digit_char 2) (string_of_uint u)
  | Decimal.D3 u => String (digit_char 3) (string_of_uint u)
  | Decimal.D4 u => String (digit_char 4) (string_of_uint u)
  | Decimal.D5 u => String (digit_char 5) (string_of_uint u)
  | Decimal.D6 u => String (digit_char 6) (string_of_uint u)
  | Decimal.D7 u => String (digit_char 7) (string_of_uint u)
  | Decimal.D8 u => String (digit_char 8) (string_of_uint u)
  | Decimal.D9 u => String (digit_char 9) (string_of_uint u)
  end.

(** Modelled from the spec: the [Display] rendering of [uint] (libcore's
    [fmt], not under src/): its decimal digits. *)
Definition show_uint (n : N) : string := string_of_uint (N.to_uint n).

(** Modelled from the spec: [Display] for [&str] writes the text verbatim. *)
Definition render_arg (m : mem) (a : fmt_arg) : string :=
  match a with
  | ArgStr s => as_string m s
  | ArgUint n => show_uint n
  end.

(** Modelled from the spec: rendering [fmt::Arguments] (libcore's [fmt]
    writer, not under src/): literal pieces are copied, each slot takes the
    next argument in order. *)
Fixpoint render_pieces (m : mem) (ps : list piece) (args : list fmt_arg) : string :=
  match ps with
  | [] => ""
  | PLit s :: ps' => s ++ render_pieces m ps' args
  | PArg :: ps' =>
      match args with
      | a :: args' => render_arg m a ++ render_pieces m ps' args'
      | [] => render_pieces m ps' []
      end
  end.

Definition render (m : mem) (fa : fmt_arguments) : string :=
  render_pieces m (fa_pieces fa) (fa_args fa).

(** ** Events and the trace monad *)

Open Scope list_scope.

(** What [begin_unwind] receives: [fmt: &fmt::Arguments, file: &'static str, line: uint]. *)
Record unwind_args := mk_unwind { u_fmt : fmt_arguments; u_file : str; u_line : N }.

Inductive event :=
| Dispatch (a : unwind_args)   (** a call of the Dispatch Hook [begin_unwind] *)
| Extern (a : unwind_args)     (** a call of the link-time symbol behind it *)
| Abort.                       (** [intrinsics::abort()] *)

(** How a computation that does not return ends: control was handed to a
    handler that never gives it back, the processor was halted, or a
    [-> !] callee came back (undefined behaviour: the compiler treats the
    point after such a call as unreachable). *)
Inductive stop := Transferred | Aborted | Undefined.

Inductive res (A : Type) :=
| Done (x : A) (tr : list event)
| Stopped (s : stop) (tr : list event).
Arguments Done {A} x tr.
Arguments Stopped {A} s tr.

Definition trace {A} (r : res A) : list event :=
  match r with Done _ tr => tr | Stopped _ tr => tr end.

Definition ret {A} (x : A) : res A := Done x [].
Definition emit (e : event) : res unit := Done tt [e].
Definition halt {A} (s : stop) : res A := Stopped s [].

Definition prepend {A} (tr : list event) (r : res A) : res A :=
  match r with
  | Done x tr' => Done x (tr ++ tr')
  | Stopped s tr' => Stopped s (tr ++ tr')
  end.

Definition bind {A B} (c : res A) (f : A -> res B) : res B :=
  match c with
  | Done x tr => prepend tr (f x)
  | Stopped s tr => Stopped s tr
  end.

Notation "x <- c ;; f" := (bind c (fun x => f))
  (at level 61, c at next level, right associativity).
Notation "c ;; f" := (bind c (fun _ : unit => f))
  (at level 61, right associativity).

(** ** The Dispatch Hook and [begin_unwind] *)

(** A Dispatch Hook implementation: the real [begin_unwind] or a test double. *)
Definition hook := unwind_args -> res unit.

(** The behaviour of the handler linked in by the upstream runtime. *)
Inductive behaviour := Diverges | Returns.

(** Calling a [-> !] extern: the call is observed, then either the handler
    keeps control, or it comes back and execution reaches code the
    compiler marked unreachable. *)
Definition call_never_returning (ext : unwind_args -> behaviour) (a : unwind_args) : res unit :=
  emit (Extern a) ;;
  match ext a with
  | Diverges => halt Transferred
  | Returns => halt Undefined
  end.

(** [pub fn begin_unwind(fmt, file, line) -> !]: forwards to the extern
    [begin_unwind] (lang item, or link name [rust_begin_unwind] in stage0;
    the two declarations have the same signature). *)
Definition begin_unwind (ext : unwind_args -> behaviour) : hook :=
  fun a => call_never_returning ext a.

(** A call site invoking the Dispatch Hook: the call is an event. *)
Definition invoke (h : hook) (a : unwind_args) : res unit :=
  emit (Dispatch a) ;; h a.

(** [intrinsics::abort()]. *)
Definition intrinsics_abort : res unit := emit Abort ;; halt Aborted.

(** [format_args!(closure, template, args..)]: builds the [fmt::Arguments]
    of the template and hands it to the closure; yields what the closure
    yields. *)
Definition format_args (k : fmt_arguments -> res unit) (template : string)
    (args : list fmt_arg) : res unit :=
  k (mk_arguments (parse_template template "") args).

(** ** The entry points *)

Section EntryPoints.

Variable h : hook.

(** [fail_] (cfg not(stage0)). *)
Definition fail_ (expr file : str) (line : N) : res unit :=
  format_args (fun args => invoke h (mk_unwind args file line)) "{}" [ArgStr expr] ;;
  intrinsics_abort.

(** [fail_bounds_check] (cfg not(stage0)). *)
Definition fail_bounds_check (file : str) (line index len : N) : res unit :=
  format_args (fun args => invoke h (mk_unwind args file line))
    "index out of bounds: the len is {} but the index is {}" [ArgUint len; ArgUint index] ;;
  intrinsics_abort.

(** [fail_] (cfg stage0): both pointers are converted first, expression
    then file; an unterminated string is undefined behaviour. *)
Definition fail_stage0 (m : mem) (expr file : nat) (line : N) : res unit :=
  match c_str_to_static_slice m expr with
  | None => halt Undefined
  | Some expr =>
      match c_str_to_static_slice m file with
      | None => halt Undefined
      | Some file =>
          format_args (fun args => invoke h (mk_unwind args file line)) "{}" [ArgStr expr] ;;
          intrinsics_abort
      end
  end.

(** [fail_bounds_check] (cfg stage0). *)
Definition fail_bounds_check_stage0 (m : mem) (file : nat) (line index len : N) : res unit :=
  match c_str_to_static_slice m file with
  | None => halt Undefined
  | Some file =>
      format_args (fun args => invoke h (mk_unwind args file line))
        "index out of bounds: the len is {} but the index is {}" [ArgUint len; ArgUint index] ;;
      intrinsics_abort
  end.

End EntryPoints.

(** The four call shapes of the failure lang items. *)
Inductive call :=
| CFail (expr file : str) (line : N)
| CBounds (file : str) (line index len : N)
| CFail0 (expr file : nat) (line : N)
| CBounds0 (file : nat) (line index len : N).

Definition run_call (h : hook) (m : mem) (c : call) : res unit :=
  match c with
  | CFail e f l => fail_ h e f l
  | CBounds f l i n => fail_bounds_check h f l i n
  | CFail0 e f l => fail_stage0 h m e f l
  | CBounds0 f l i n => fail_bounds_check_stage0 h m f l i n
  end.

(** ** Observations *)

(** [true] when the computation came back to its caller. *)
Definition returns_normally {A} (r : res A) : bool :=
  match r with Done _ _ => true | Stopped _ _ => false end.

Definition is_dispatch (e : event) : bool :=
  match e with Dispatch _ => true | _ => false end.

Definition is_abort (e : event) : bool :=
  match e with Abort => true | _ => false end.

Definition count_dispatch (tr : list event) : nat := List.length (filter is_dispatch tr).
Definition count_abort (tr : list event) : nat := List.length (filter is_abort tr).

(** The arguments of the first Dispatch Hook call of a trace. *)
Fixpoint first_dispatch (tr : list event) : option unwind_args :=
  match tr with
  | [] => None
  | Dispatch a :: _ => Some a
  | _ :: tr' => first_dispatch tr'
  end.

(** What a hook call shows to a reader of the message and location: the
    rendered message, the file text and the line. *)
Definition observe (m : mem) (a : unwind_args) : string * string * N :=
  (render m (u_fmt a), as_string m (u_file a), u_line a).

(** A hook whose own events are only calls into the link-time symbol (no
    nested Dispatch Hook call, no abort): the real [begin_unwind] and
    simple test doubles. *)
Definition quiet (h : hook) : Prop :=
  forall a, Forall (fun e => is_dispatch e = false /\ is_abort e = false) (trace (h a)).

(** A stage0 call whose pointers all reach a zero byte. *)
Definition call_ok (m : mem) (c : call) : bool :=
  match c with
  | CFail0 e f _ =>
      match c_str_to_static_slice m e, c_str_to_static_slice m f with
      | Some _, Some _ => true
      | _, _ => false
      end
  | CBounds0 f _ _ _ =>
      match c_str_to_static_slice m f with Some _ => true | None => false end
  | _ => true
  end.

Definition call_line (c : call) : N :=
  match c with
  | CFail _ _ l | CBounds _ l _ _ | CFail0 _ _ l | CBounds0 _ l _ _ => l
  end.

(** The last event of a run is the hand-over to the link-time handler or the abort. *)
Definition ends_in_transfer_or_halt {A} (r : res A) : Prop :=
  returns_normally r = false /\
  match List.last (map Some (trace r)) None with
  | Some (Extern _) | Some Abort => True
  | _ => False
  end.

(** The [fmt::Arguments] that [format_args!] builds for the two templates. *)
Definition literal_arguments (expr : str) : fmt_arguments :=
  mk_arguments [PArg] [ArgStr expr].

Definition bounds_template : string :=
  "index out of bounds: the len is {} but the index is {}".

Definition bounds_arguments (index len : N) : fmt_arguments :=
  mk_arguments [PLit "index out of bounds: the len is "; PArg; PLit " but the index is "; PArg]
    [ArgUint len; ArgUint index].

(** The hook arguments a call dispatches, if it gets that far. *)
Definition dispatched_args (m : mem) (c : call) : option unwind_args :=
  match c with
  | CFail e f l => Some (mk_unwind (literal_arguments e) f l)
  | CBounds f l i n => Some (mk_unwind (bounds_arguments i n) f l)
  | CFail0 pe pf l =>
      match c_str_to_static_slice m pe, c_str_to_static_slice m pf with
      | Some e, Some f => Some (mk_unwind (literal_arguments e) f l)
      | _, _ => None
      end
  | CBounds0 pf l i n =>
      match c_str_to_static_slice m pf with
      | Some f => Some (mk_unwind (bounds_arguments i n) f l)
      | None => None
      end
  end.

(** A decoded null-terminated string. *)
Definition c_string (m : mem) (p : nat) : option string :=
  option_map (as_string m) (c_str_to_static_slice m p).

(** Two calls of the same shape whose strings read the same and whose
    numbers are equal. *)
Definition same_inputs (m1 : mem) (c1 : call) (m2 : mem) (c2 : call) : Prop :=
  match c1, c2 with
  | CFail e1 f1 l1, CFail e2 f2 l2 =>
      as_string m1 e1 = as_string m2 e2 /\ as_string m1 f1 = as_string m2 f2 /\ l1 = l2
  | CBounds f1 l1 i1 n1, CBounds f2 l2 i2 n2 =>
      as_string m1 f1 = as_string m2 f2 /\ l1 = l2 /\ i1 = i2 /\ n1 = n2
  | CFail0 e1 f1 l1, CFail0 e2 f2 l2 =>
      c_string m1 e1 = c_string m2 e2 /\ c_string m1 f1 = c_string m2 f2 /\ l1 = l2
  | CBounds0 f1 l1 i1 n1, CBounds0 f2 l2 i2 n2 =>
      c_string m1 f1 = c_string m2 f2 /\ l1 = l2 /\ i1 = i2 /\ n1 = n2
  | _, _ => False
  end.

(** ** Function attributes (from the source) *)

Inductive entry := E_fail | E_fail_stage0 | E_fail_bounds_check | E_fail_bounds_check_stage0
                 | E_begin_unwind.

Inductive attribute := Cold | InlineNever | LangItem (name : string).

Definition attributes (e : entry) : list attribute :=
  match e with
  | E_fail | E_fail_stage0 => [Cold; InlineNever; LangItem "fail_"]
  | E_fail_bounds_check | E_fail_bounds_check_stage0 => [Cold; LangItem "fail_bounds_check"]
  | E_begin_unwind => [Cold]
  end.

Definition has_attribute (a : attribute) (e : entry) : bool :=
  existsb (fun b => match a, b with
                    | Cold, Cold | InlineNever, InlineNever => true
                    | LangItem x, LangItem y => String.eqb x y
                    | _, _ => false
                    end) (attributes e).

(** ** General lemmas *)

Lemma parse_literal_template : parse_template "{}" "" = [PArg].
Proof. reflexivity. Qed.

Lemma parse_bounds_template :
  parse_template bounds_template "" = fa_pieces (bounds_arguments 0 0).
Proof. reflexivity. Qed.

Lemma invoke_then_abort (h : hook) (a : unwind_args) :
  (invoke h a ;; intrinsics_abort) =
  match h a with
  | Done _ tr => Stopped Aborted (Dispatch a :: tr ++ [Abort])
  | Stopped s tr => Stopped s (Dispatch a :: tr)
  end.
Proof.
  unfold invoke, intrinsics_abort, emit, halt; simpl.
  destruct (h a) as [[] tr | s tr]; reflexivity.
Qed.

Lemma fail__eq (h : hook) (expr file : str) (line : N) :
  fail_ h expr file line = (invoke h (mk_unwind (literal_arguments expr) file line) ;; intrinsics_abort).
Proof. reflexivity. Qed.

Lemma fail_bounds_check_eq (h : hook) (file : str) (line index len : N) :
  fail_bounds_check h file line index len =
  (invoke h (mk_unwind (bounds_arguments index len) file line) ;; intrinsics_abort).
Proof. reflexivity. Qed.

Lemma run_call_eq (h : hook) (m : mem) (c : call) :
  run_call h m c =
  match dispatched_args m c with
  | None => halt Undefined
  | Some a => invoke h a ;; intrinsics_abort
  end.
Proof.
  destruct c as [e f l | f l i n | pe pf l | pf l i n]; simpl; try reflexivity.
  - unfold fail_stage0.
    destruct (c_str_to_static_slice m pe), (c_str_to_static_slice m pf); reflexivity.
  - unfold fail_bounds_check_stage0.
    destruct (c_str_to_static_slice m pf); reflexivity.
Qed.

Lemma first_dispatch_run (h : hook) (m : mem) (c : call) :
  first_dispatch (trace (run_call h m c)) = dispatched_args m c.
Proof.
  rewrite run_call_eq. destruct (dispatched_args m c) as [a|]; [|reflexivity].
  rewrite invoke_then_abort. destruct (h a); reflexivity.
Qed.

Lemma run_call_not_returning (h : hook) (m : mem) (c : call) :
  returns_normally (run_call h m c) = false.
Proof.
  rewrite run_call_eq. destruct (dispatched_args m c) as [a|]; [|reflexivity].
  rewrite invoke_then_abort. destruct (h a); reflexivity.
Qed.

Lemma quiet_counts (h : hook) (a : unwind_args) :
  quiet h -> count_dispatch (trace (h a)) = 0 /\ count_abort (trace (h a)) = 0.
Proof.
  intros Hq. specialize (Hq a). unfold count_dispatch, count_abort.
  induction Hq as [|e tr [Hd Ha] _ [IH1 IH2]]; simpl; [auto|].
  rewrite Hd, Ha. auto.
Qed.



Lemma begin_unwind_quiet (ext : unwind_args -> behaviour) : quiet (begin_unwind ext).
Proof.
  intros a. unfold begin_unwind, call_never_returning, emit, halt; simpl.
  destruct (ext a); simpl; repeat constructor.
Qed.

Lemma string_append_empty (s : string) : (s ++ "")%string = s.
Proof. induction s as [|c s IH]; simpl; [reflexivity | rewrite IH; reflexivity]. Qed.


Lemma dispatch_count_after (h : hook) (a : unwind_args) :
  quiet h -> count_dispatch (trace (invoke h a ;; intrinsics_abort)) = 1.
Proof.
  intros Hq. destruct (quiet_counts h a Hq) as [Hd _].
  rewrite invoke_then_abort. destruct (h a) as [x tr | s tr]; simpl in *.
  - unfold count_dispatch in *; simpl. rewrite filter_app, length_app, Hd. reflexivity.
  - unfold count_dispatch in *; simpl. rewrite Hd. reflexivity.
Qed.

(** A test double for the Dispatch Hook that simply returns. *)
Definition returning_double : hook := fun _ => ret tt.

Lemma returning_double_quiet : quiet returning_double.
Proof. intros a. constructor. Qed.

(** Static memory of the scenarios of the spec. *)
Definition scenario_mem : mem :=
  list_byte_of_string "assertion failedlib.rsvec.rs{}main.rs" ++ [x00].

Definition s_assert : str := mk_str 0 16.
Definition s_lib : str := mk_str 16 6.
Definition s_vec : str := mk_str 22 6.
Definition s_braces : str := mk_str 28 2.

(** ** C1: explicit failure *)

(** C1: for every message and location, [fail_] calls the Dispatch Hook
    exactly once, with the [fmt::Arguments] of the template ["{}"] applied
    to the message, which renders to the message text itself whatever it
    contains (braces included, since the message is an argument, not the
    template), with the given file and line; the call never returns. *)
Theorem fail__literal_dispatch (h : hook) (Hq : quiet h) (m : mem)
    (expr file : str) (line : N) :
  count_dispatch (trace (fail_ h expr file line)) = 1 /\
  first_dispatch (trace (fail_ h expr file line)) =
    Some (mk_unwind (literal_arguments expr) file line) /\
  render m (literal_arguments expr) = as_string m expr /\
  returns_normally (fail_ h expr file line) = false.
Proof.
  rewrite fail__eq. split; [|split; [|split]].
  - apply dispatch_count_after; exact Hq.
  - rewrite invoke_then_abort. destruct (h _); reflexivity.
  - unfold render; simpl. apply string_append_empty.
  - rewrite invoke_then_abort. destruct (h _); reflexivity.
Qed.

Lemma fail__literal_dispatch_witness :
  quiet (begin_unwind (fun _ => Diverges)) /\
  (count_dispatch (trace (fail_ (begin_unwind (fun _ => Diverges)) s_braces s_lib 10)) = 1 /\
   first_dispatch (trace (fail_ (begin_unwind (fun _ => Diverges)) s_braces s_lib 10)) =
     Some (mk_unwind (literal_arguments s_braces) s_lib 10) /\
   render scenario_mem (literal_arguments s_braces) = as_string scenario_mem s_braces /\
   returns_normally (fail_ (begin_unwind (fun _ => Diverges)) s_braces s_lib 10) = false).
Proof.
  split; [apply begin_unwind_quiet|].
  apply (fail__literal_dispatch (begin_unwind (fun _ => Diverges)) (begin_unwind_quiet _)
           scenario_mem s_braces s_lib 10).
Defined.

(** The scenario of the spec: [fail_("assertion failed", "lib.rs", 10)]. *)
Example fail__scenario :
  option_map (observe scenario_mem)
    (first_dispatch (trace (fail_ (begin_unwind (fun _ => Diverges)) s_assert s_lib 10))) =
  Some ("assertion failed", "lib.rs", 10%N).
Proof. reflexivity. Qed.

(** A message with braces is passed through verbatim. *)
Example fail__braces_verbatim :
  render scenario_mem (literal_arguments s_braces) = "{}"%string.
Proof. reflexivity. Qed.

(** ** C2: bounds-check failure *)

(** C2: for every index, len and location, [fail_bounds_check] calls the
    Dispatch Hook exactly once, with the template of the source parsed to
    its pieces and the arguments len then index, rendering to
    ["index out of bounds: the len is " ++ len ++ " but the index is " ++ index]
    in decimal, and with the given file and line. *)
Theorem fail_bounds_check_message (h : hook) (Hq : quiet h) (m : mem)
    (file : str) (line index len : N) :
  count_dispatch (trace (fail_bounds_check h file line index len)) = 1 /\
  first_dispatch (trace (fail_bounds_check h file line index len)) =
    Some (mk_unwind (bounds_arguments index len) file line) /\
  fa_pieces (bounds_arguments index len) = parse_template bounds_template "" /\
  render m (bounds_arguments index len) =
    ("index out of bounds: the len is " ++ show_uint len ++ " but the index is "
     ++ show_uint index)%string.
Proof.
  rewrite fail_bounds_check_eq. split; [|split; [|split]].
  - apply dispatch_count_after; exact Hq.
  - rewrite invoke_then_abort. destruct (h _); reflexivity.
  - reflexivity.
  - unfold render; simpl. rewrite !string_append_empty. reflexivity.
Qed.

Lemma fail_bounds_check_message_witness :
  quiet (begin_unwind (fun _ => Diverges)) /\
  (count_dispatch (trace (fail_bounds_check (begin_unwind (fun _ => Diverges)) s_vec 42 5 3)) = 1 /\
   first_dispatch (trace (fail_bounds_check (begin_unwind (fun _ => Diverges)) s_vec 42 5 3)) =
     Some (mk_unwind (bounds_arguments 5 3) s_vec 42) /\
   fa_pieces (bounds_arguments 5 3) = parse_template bounds_template "" /\
   render scenario_mem (bounds_arguments 5 3) =
     ("index out of bounds: the len is " ++ show_uint 3 ++ " but the index is "
      ++ show_uint 5)%string).
Proof.
  split; [apply begin_unwind_quiet|].
  apply (fail_bounds_check_message (begin_unwind (fun _ => Diverges)) (begin_unwind_quiet _)
           scenario_mem s_vec 42 5 3).
Defined.

(** The scenario of the spec: [fail_bounds_check("vec.rs", 42, 5, 3)]. *)
Example fail_bounds_check_scenario :
  option_map (observe scenario_mem)
    (first_dispatch (trace (fail_bounds_check (begin_unwind (fun _ => Diverges)) s_vec 42 5 3))) =
  Some ("index out of bounds: the len is 3 but the index is 5", "vec.rs", 42%N).
Proof. reflexivity. Qed.

(** ** C3: the abort fallback *)

(** C3: for every failure call, if the Dispatch Hook comes back (a test
    double that returns), the entry point calls [intrinsics::abort] exactly
    once, as the very last event, and stops there; no failure call, with
    any hook, ever returns to its caller (the state it started from). *)
Theorem hook_return_aborts (h : hook) (Hq : quiet h) (m : mem) (c : call)
    (a : unwind_args) (tr : list event)
    (Hd : dispatched_args m c = Some a) (Hret : h a = Done tt tr) :
  run_call h m c = Stopped Aborted (Dispatch a :: tr ++ [Abort]) /\
  count_abort (trace (run_call h m c)) = 1 /\
  List.last (trace (run_call h m c)) (Dispatch a) = Abort /\
  (forall h' : hook, returns_normally (run_call h' m c) = false).
Proof.
  assert (Hrun : run_call h m c = Stopped Aborted (Dispatch a :: tr ++ [Abort])).
  { rewrite run_call_eq, Hd, invoke_then_abort, Hret. reflexivity. }
  rewrite Hrun. split; [reflexivity|split; [|split]].
  - destruct (quiet_counts h a Hq) as [_ Ha]. rewrite Hret in Ha. simpl in Ha.
    simpl. unfold count_abort in *. simpl. rewrite filter_app, length_app, Ha. reflexivity.
  - simpl trace. change (Dispatch a :: tr ++ [Abort]) with ((Dispatch a :: tr) ++ [Abort]).
    apply last_last.
  - intros h'. apply run_call_not_returning.
Qed.

Lemma hook_return_aborts_witness :
  quiet returning_double /\
  dispatched_args scenario_mem (CBounds s_vec 42 5 3) =
    Some (mk_unwind (bounds_arguments 5 3) s_vec 42) /\
  returning_double (mk_unwind (bounds_arguments 5 3) s_vec 42) = Done tt [] /\
  (run_call returning_double scenario_mem (CBounds s_vec 42 5 3) =
     Stopped Aborted (Dispatch (mk_unwind (bounds_arguments 5 3) s_vec 42) :: [] ++ [Abort]) /\
   count_abort (trace (run_call returning_double scenario_mem (CBounds s_vec 42 5 3))) = 1 /\
   List.last (trace (run_call returning_double scenario_mem (CBounds s_vec 42 5 3)))
     (Dispatch (mk_unwind (bounds_arguments 5 3) s_vec 42)) = Abort /\
   (forall h' : hook, returns_normally (run_call h' scenario_mem (CBounds s_vec 42 5 3)) = false)).
Proof.
  split; [apply returning_double_quiet|split; [reflexivity|split; [reflexivity|]]].
  apply (hook_return_aborts returning_double returning_double_quiet scenario_mem
           (CBounds s_vec 42 5 3) _ [] eq_refl eq_refl).
Defined.

(** ** C4: the legacy location conversion *)

Lemma scan_to_nul_spec (bs : list byte) (n : nat) :
  scan_to_nul bs = Some n ->
  nth_error bs n = Some x00 /\
  (forall i, i < n -> exists b, nth_error bs i = Some b /\ b <> x00).
Proof.
  revert n. induction bs as [|b r IH]; intros n H; simpl in H; [discriminate|].
  destruct (Byte.eqb b x00) eqn:Hb.
  - injection H as <-. apply Byte.byte_dec_bl in Hb. subst b.
    split; [reflexivity|]. intros i Hi. lia.
  - destruct (scan_to_nul r) as [k|] eqn:Hr; simpl in H; [|discriminate].
    injection H as <-. destruct (IH k eq_refl) as [Hz Hnz]. split; [exact Hz|].
    intros [|i] Hi; simpl.
    + exists b. split; [reflexivity|]. intros ->. discriminate.
    + apply Hnz. lia.
Qed.

Lemma stage0_dispatch_file (h : hook) (m : mem) (pe pf : nat) (se sf : str) (line : N) :
  c_str_to_static_slice m pe = Some se -> c_str_to_static_slice m pf = Some sf ->
  fail_stage0 h m pe pf line = fail_ h se sf line.
Proof. intros He Hf. unfold fail_stage0. rewrite He, Hf. reflexivity. Qed.

Lemma stage0_bounds_file (h : hook) (m : mem) (pf : nat) (sf : str) (line index len : N) :
  c_str_to_static_slice m pf = Some sf ->
  fail_bounds_check_stage0 h m pf line index len = fail_bounds_check h sf line index len.
Proof. intros Hf. unfold fail_bounds_check_stage0. rewrite Hf. reflexivity. Qed.

(** C4: when [c_str_to_static_slice] converts a pointer [p] to a slice,
    the slice starts at [p] itself (a view of the same bytes, no copy),
    its length is the number of bytes before the first zero byte from [p]
    (all of them non-zero, the byte right after them zero); on the stage0
    paths the converted file and the unchanged line are what the Dispatch
    Hook receives. *)
Theorem c_str_to_static_slice_view (m : mem) (p : nat) (s : str)
    (H : c_str_to_static_slice m p = Some s) (h : hook) (line index len : N) :
  sptr s = p /\
  nth_error m (p + slen s) = Some x00 /\
  (forall i, i < slen s -> exists b, nth_error m (p + i) = Some b /\ b <> x00) /\
  first_dispatch (trace (fail_bounds_check_stage0 h m p line index len)) =
    Some (mk_unwind (bounds_arguments index len) s line) /\
  (forall (pe : nat) (se : str), c_str_to_static_slice m pe = Some se ->
     first_dispatch (trace (fail_stage0 h m pe p line)) =
       Some (mk_unwind (literal_arguments se) s line)).
Proof.
  unfold c_str_to_static_slice in H.
  destruct (scan_to_nul (skipn p m)) as [n|] eqn:Hs; simpl in H; [|discriminate].
  injection H as <-. simpl.
  destruct (scan_to_nul_spec _ _ Hs) as [Hz Hnz].
  split; [reflexivity|]. split; [rewrite <- nth_error_skipn; exact Hz|]. split.
  - intros i Hi. rewrite <- nth_error_skipn. apply Hnz. exact Hi.
  - assert (Hc : c_str_to_static_slice m p = Some (mk_str p n))
      by (unfold c_str_to_static_slice; rewrite Hs; reflexivity).
    split.
    + rewrite (stage0_bounds_file h m p _ line index len Hc), fail_bounds_check_eq,
        invoke_then_abort. destruct (h _); reflexivity.
    + intros pe se He. rewrite (stage0_dispatch_file h m pe p se _ line He Hc), fail__eq,
        invoke_then_abort. destruct (h _); reflexivity.
Qed.

Definition main_rs : nat := 30.

Lemma c_str_to_static_slice_view_witness :
  c_str_to_static_slice scenario_mem main_rs = Some (mk_str 30 7) /\
  as_string scenario_mem (mk_str 30 7) = "main.rs"%string /\
  (sptr (mk_str 30 7) = main_rs /\
   nth_error scenario_mem (main_rs + slen (mk_str 30 7)) = Some x00 /\
   (forall i, i < slen (mk_str 30 7) ->
      exists b, nth_error scenario_mem (main_rs + i) = Some b /\ b <> x00) /\
   first_dispatch (trace (fail_bounds_check_stage0 returning_double scenario_mem main_rs 7 5 3)) =
     Some (mk_unwind (bounds_arguments 5 3) (mk_str 30 7) 7) /\
   (forall (pe : nat) (se : str), c_str_to_static_slice scenario_mem pe = Some se ->
      first_dispatch (trace (fail_stage0 returning_double scenario_mem pe main_rs 7)) =
        Some (mk_unwind (literal_arguments se) (mk_str 30 7) 7))).
Proof.
  split; [vm_compute; reflexivity|]. split; [vm_compute; reflexivity|].
  apply (c_str_to_static_slice_view scenario_mem main_rs (mk_str 30 7) eq_refl
           returning_double 7 5 3).
Defined.

(** ** C5: stage0 and current variants agree *)

(** Static memory of a stage0 build: the same strings, null-terminated. *)
Definition legacy_mem : mem :=
  list_byte_of_string "assertion failed" ++ [x00] ++ list_byte_of_string "lib.rs" ++ [x00]
  ++ list_byte_of_string "vec.rs" ++ [x00].

(** C5: the stage0 variants first normalise their null-terminated
    arguments to slices and then do exactly what the current variants do
    with those slices; so when the legacy strings read the same as the
    current variant's slices (in its own memory) and line, index and len
    are equal, the Dispatch Hook call shows the same message, file and
    line. *)
Theorem stage0_refines_current (h : hook) (m m' : mem) (pe pf : nat) (se sf e f : str)
    (line index len : N)
    (He : c_str_to_static_slice m pe = Some se) (Hf : c_str_to_static_slice m pf = Some sf)
    (Hse : as_string m se = as_string m' e) (Hsf : as_string m sf = as_string m' f) :
  fail_stage0 h m pe pf line = fail_ h se sf line /\
  fail_bounds_check_stage0 h m pf line index len = fail_bounds_check h sf line index len /\
  option_map (observe m) (first_dispatch (trace (fail_stage0 h m pe pf line))) =
    option_map (observe m') (first_dispatch (trace (fail_ h e f line))) /\
  option_map (observe m) (first_dispatch (trace (fail_bounds_check_stage0 h m pf line index len))) =
    option_map (observe m') (first_dispatch (trace (fail_bounds_check h f line index len))).
Proof.
  rewrite (stage0_dispatch_file h m pe pf se sf line He Hf),
    (stage0_bounds_file h m pf sf line index len Hf).
  split; [reflexivity|]. split; [reflexivity|].
  rewrite !fail__eq, !fail_bounds_check_eq, !invoke_then_abort. split.
  - destruct (h (mk_unwind (literal_arguments se) sf line)), (h (mk_unwind (literal_arguments e) f line));
      unfold observe, render; simpl; rewrite Hse, Hsf; reflexivity.
  - destruct (h (mk_unwind (bounds_arguments index len) sf line)),
      (h (mk_unwind (bounds_arguments index len) f line));
      unfold observe, render; simpl; rewrite Hsf; reflexivity.
Qed.

Lemma stage0_refines_current_witness :
  c_str_to_static_slice legacy_mem 0 = Some (mk_str 0 16) /\
  c_str_to_static_slice legacy_mem 17 = Some (mk_str 17 6) /\
  as_string legacy_mem (mk_str 0 16) = as_string scenario_mem s_assert /\
  as_string legacy_mem (mk_str 17 6) = as_string scenario_mem s_lib /\
  (fail_stage0 returning_double legacy_mem 0 17 10 = fail_ returning_double (mk_str 0 16) (mk_str 17 6) 10 /\
   fail_bounds_check_stage0 returning_double legacy_mem 17 10 5 3 =
     fail_bounds_check returning_double (mk_str 17 6) 10 5 3 /\
   option_map (observe legacy_mem) (first_dispatch (trace (fail_stage0 returning_double legacy_mem 0 17 10))) =
     option_map (observe scenario_mem) (first_dispatch (trace (fail_ returning_double s_assert s_lib 10))) /\
   option_map (observe legacy_mem)
     (first_dispatch (trace (fail_bounds_check_stage0 returning_double legacy_mem 17 10 5 3))) =
     option_map (observe scenario_mem)
       (first_dispatch (trace (fail_bounds_check returning_double s_lib 10 5 3)))).
Proof.
  do 4 (split; [vm_compute; reflexivity|]).
  apply (stage0_refines_current returning_double legacy_mem scenario_mem 0 17
           (mk_str 0 16) (mk_str 17 6) s_assert s_lib 10 5 3); vm_compute; reflexivity.
Defined.

(** ** C6: code-layout attributes *)

(** C6: all four lang-item functions carry [#[cold]], but only the two
    [fail_] variants carry [#[inline(never)]]; both [fail_bounds_check]
    variants lack it. *)
Theorem fail_bounds_check_lacks_inline_never :
  has_attribute Cold E_fail = true /\ has_attribute Cold E_fail_stage0 = true /\
  has_attribute Cold E_fail_bounds_check = true /\
  has_attribute Cold E_fail_bounds_check_stage0 = true /\
  has_attribute InlineNever E_fail = true /\ has_attribute InlineNever E_fail_stage0 = true /\
  has_attribute InlineNever E_fail_bounds_check = false /\
  has_attribute InlineNever E_fail_bounds_check_stage0 = false.
Proof. repeat split. Qed.

(** ** C7: no failure path returns *)

Lemma call_ok_dispatched (m : mem) (c : call) :
  call_ok m c = false \/ exists a, dispatched_args m c = Some a.
Proof.
  destruct c as [e f l | f l i n | pe pf l | pf l i n]; simpl; eauto.
  - destruct (c_str_to_static_slice m pe), (c_str_to_static_slice m pf); eauto.
  - destruct (c_str_to_static_slice m pf); eauto.
Qed.

Lemma begin_unwind_trace (ext : unwind_args -> behaviour) (a : unwind_args) :
  exists s, begin_unwind ext a = Stopped s [Extern a].
Proof.
  unfold begin_unwind, call_never_returning, emit, halt; simpl.
  destruct (ext a); eexists; reflexivity.
Qed.

(** C7: whatever the Dispatch Hook does, no call of [fail_] or
    [fail_bounds_check] (in either configuration) returns to its caller;
    [begin_unwind] does not return either, its only action being the
    hand-over to the link-time symbol; and with the real [begin_unwind]
    every well-formed call ends in that hand-over (stage0 pointers that
    never reach a zero byte are undefined behaviour before any dispatch). *)
Theorem entry_points_diverge :
  (forall (h : hook) (m : mem) (c : call), returns_normally (run_call h m c) = false) /\
  (forall (ext : unwind_args -> behaviour) (a : unwind_args),
     returns_normally (begin_unwind ext a) = false /\ trace (begin_unwind ext a) = [Extern a]) /\
  (forall (ext : unwind_args -> behaviour) (m : mem) (c : call),
     call_ok m c = false \/ ends_in_transfer_or_halt (run_call (begin_unwind ext) m c)).
Proof.
  split; [exact run_call_not_returning|]. split.
  - intros ext a. destruct (begin_unwind_trace ext a) as [s ->]. split; reflexivity.
  - intros ext m c. destruct (call_ok_dispatched m c) as [Hn | [a Ha]]; [left; exact Hn|].
    right. rewrite run_call_eq, Ha, invoke_then_abort.
    destruct (begin_unwind_trace ext a) as [s ->]. split; simpl; [reflexivity | exact I].
Qed.

(** ** C8: no precondition on index and len *)

(** C8: [fail_bounds_check] never compares index with len: for every
    pair, including an index below len, it builds the arguments of its
    template from them, calls the Dispatch Hook and falls back to the
    abort, the same steps as [fail_]; the stage0 variant does the same
    after converting the file pointer. *)
Theorem bounds_check_no_precondition (h : hook) (m : mem) (file : str) (pf : nat)
    (e : str) (line index len : N) :
  fail_bounds_check h file line index len =
    (invoke h (mk_unwind (bounds_arguments index len) file line) ;; intrinsics_abort) /\
  fail_ h e file line =
    (invoke h (mk_unwind (literal_arguments e) file line) ;; intrinsics_abort) /\
  first_dispatch (trace (fail_bounds_check h file line index len)) =
    Some (mk_unwind (bounds_arguments index len) file line) /\
  ((c_str_to_static_slice m pf = None /\
      fail_bounds_check_stage0 h m pf line index len = halt Undefined) \/
   (exists sf, c_str_to_static_slice m pf = Some sf /\
      fail_bounds_check_stage0 h m pf line index len = fail_bounds_check h sf line index len)).
Proof.
  split; [reflexivity|]. split; [reflexivity|]. split.
  - rewrite fail_bounds_check_eq, invoke_then_abort. destruct (h _); reflexivity.
  - unfold fail_bounds_check_stage0.
    destruct (c_str_to_static_slice m pf) as [sf|]; [right; exists sf; auto | left; auto].
Qed.

(** An in-bounds pair is reported all the same. *)
Example bounds_check_in_bounds :
  option_map (observe scenario_mem)
    (first_dispatch (trace (fail_bounds_check returning_double s_vec 42 1 3))) =
  Some ("index out of bounds: the len is 3 but the index is 1", "vec.rs", 42%N).
Proof. reflexivity. Qed.

(** ** C9: [begin_unwind] forwards its arguments *)

(** C9: [begin_unwind] calls the link-time symbol exactly once with its
    three arguments unchanged, and nothing else; for every well-formed
    call of an entry point linked with it, the arguments the entry point
    dispatches reach the link-time symbol unchanged, with the line the
    entry point was given. *)
Theorem begin_unwind_forwards (ext : unwind_args -> behaviour) :
  (forall a : unwind_args, trace (begin_unwind ext a) = [Extern a]) /\
  (forall (m : mem) (c : call),
     call_ok m c = false \/
     exists a, dispatched_args m c = Some a /\
       trace (run_call (begin_unwind ext) m c) = [Dispatch a; Extern a] /\
       u_line a = call_line c).
Proof.
  split.
  - intros a. destruct (begin_unwind_trace ext a) as [s ->]. reflexivity.
  - intros m c. destruct (call_ok_dispatched m c) as [Hn | [a Ha]]; [left; exact Hn|].
    right. exists a. split; [exact Ha|]. split.
    + rewrite run_call_eq, Ha, invoke_then_abort.
      destruct (begin_unwind_trace ext a) as [s ->]. reflexivity.
    + destruct c as [e f l | f l i n | pe pf l | pf l i n]; simpl in Ha.
      * injection Ha as <-. reflexivity.
      * injection Ha as <-. reflexivity.
      * destruct (c_str_to_static_slice m pe), (c_str_to_static_slice m pf);
          try discriminate. injection Ha as <-. reflexivity.
      * destruct (c_str_to_static_slice m pf); try discriminate.
        injection Ha as <-. reflexivity.
Qed.

(** ** C10: determinism *)

(** C10: two calls of the same entry point whose string arguments read the
    same (each in its own static memory) and whose line, index and len
    are equal give Dispatch Hook calls that show the same message, file
    and line, whatever the hook. *)
Theorem entry_points_deterministic (h : hook) (m1 m2 : mem) (c1 c2 : call)
    (Hs : same_inputs m1 c1 m2 c2) :
  option_map (observe m1) (first_dispatch (trace (run_call h m1 c1))) =
  option_map (observe m2) (first_dispatch (trace (run_call h m2 c2))).
Proof.
  rewrite !first_dispatch_run.
  destruct c1 as [e1 f1 l1 | f1 l1 i1 n1 | pe1 pf1 l1 | pf1 l1 i1 n1],
           c2 as [e2 f2 l2 | f2 l2 i2 n2 | pe2 pf2 l2 | pf2 l2 i2 n2];
    simpl in Hs; try contradiction; simpl.
  - destruct Hs as [H1 [H2 ->]]. unfold observe, render; simpl. rewrite H1, H2. reflexivity.
  - destruct Hs as [H1 [-> [-> ->]]]. unfold observe, render; simpl. rewrite H1. reflexivity.
  - destruct Hs as [H1 [H2 ->]]. unfold c_string in H1, H2.
    destruct (c_str_to_static_slice m1 pe1), (c_str_to_static_slice m1 pf1),
      (c_str_to_static_slice m2 pe2), (c_str_to_static_slice m2 pf2);
      simpl in H1, H2; try discriminate; try reflexivity.
    injection H1 as H1. injection H2 as H2.
    unfold observe, render; simpl. rewrite H1, H2. reflexivity.
  - destruct Hs as [H1 [-> [-> ->]]]. unfold c_string in H1.
    destruct (c_str_to_static_slice m1 pf1), (c_str_to_static_slice m2 pf2);
      simpl in H1; try discriminate; try reflexivity.
    injection H1 as H1. unfold observe, render; simpl. rewrite H1. reflexivity.
Qed.

Lemma entry_points_deterministic_witness :
  same_inputs scenario_mem (CFail s_assert s_lib 10) legacy_mem (CFail (mk_str 0 16) (mk_str 17 6) 10) /\
  option_map (observe scenario_mem)
    (first_dispatch (trace (run_call returning_double scenario_mem (CFail s_assert s_lib 10)))) =
  option_map (observe legacy_mem)
    (first_dispatch (trace (run_call returning_double legacy_mem
                              (CFail (mk_str 0 16) (mk_str 17 6) 10)))).
Proof.
  assert (Hs : same_inputs scenario_mem (CFail s_assert s_lib 10) legacy_mem
                 (CFail (mk_str 0 16) (mk_str 17 6) 10))
    by (vm_compute; split; [reflexivity | split; reflexivity]).
  split; [exact Hs|].
  apply (entry_points_deterministic returning_double _ _ _ _ Hs).
Defined.

(** * Further properties of the failure path *)

Definition has_nul (bs : list byte) : bool := existsb (fun b => Byte.eqb b x00) bs.


Lemma scan_to_nul_app (bs r : list byte) :
  has_nul bs = false -> scan_to_nul (bs ++ x00 :: r) = Some (List.length bs).
Proof.
  induction bs as [|b bs IH]; simpl; [reflexivity|].
  destruct (Byte.eqb b x00); simpl; [discriminate|]. intros H. rewrite IH by exact H. reflexivity.
Qed.

Lemma c_str_terminated (m : mem) (p : nat) (bs r : list byte) :
  skipn p m = bs ++ x00 :: r -> has_nul bs = false ->
  c_str_to_static_slice m p = Some (mk_str p (List.length bs)) /\
  as_string m (mk_str p (List.length bs)) = string_of_list_byte bs.
Proof.
  intros Hs Hn. unfold c_str_to_static_slice, as_string. simpl.
  rewrite Hs, scan_to_nul_app by exact Hn. split; [reflexivity|].
  rewrite firstn_app, firstn_all, PeanoNat.Nat.sub_diag. simpl. rewrite app_nil_r. reflexivity.
Qed.

(** X1: once the real [begin_unwind] is linked, no failure call ever
    reaches [intrinsics::abort]: a well-formed call hands the dispatched
    arguments over to the link-time symbol and ends there, with control
    kept by the handler, or undefined behaviour if the handler comes back
    (the wrapper is [-> !]). *)
Theorem linked_begin_unwind_never_aborts (ext : unwind_args -> behaviour) (m : mem) (c : call)
    (a : unwind_args) (Hd : dispatched_args m c = Some a) :
  count_abort (trace (run_call (begin_unwind ext) m c)) = 0 /\
  run_call (begin_unwind ext) m c =
    Stopped (match ext a with Diverges => Transferred | Returns => Undefined end)
      [Dispatch a; Extern a].
Proof.
  assert (Hrun : run_call (begin_unwind ext) m c =
    Stopped (match ext a with Diverges => Transferred | Returns => Undefined end)
      [Dispatch a; Extern a]).
  { rewrite run_call_eq, Hd, invoke_then_abort.
    unfold begin_unwind, call_never_returning, emit, halt; simpl.
    destruct (ext a); reflexivity. }
  rewrite Hrun. split; reflexivity.
Qed.

Lemma linked_begin_unwind_never_aborts_witness :
  dispatched_args scenario_mem (CFail s_assert s_lib 10) =
    Some (mk_unwind (literal_arguments s_assert) s_lib 10) /\
  (count_abort (trace (run_call (begin_unwind (fun _ => Returns)) scenario_mem
                         (CFail s_assert s_lib 10))) = 0 /\
   run_call (begin_unwind (fun _ => Returns)) scenario_mem (CFail s_assert s_lib 10) =
     Stopped Undefined
       [Dispatch (mk_unwind (literal_arguments s_assert) s_lib 10);
        Extern (mk_unwind (literal_arguments s_assert) s_lib 10)]).
Proof.
  split; [reflexivity|].
  apply (linked_begin_unwind_never_aborts (fun _ => Returns) scenario_mem
           (CFail s_assert s_lib 10) _ eq_refl).
Defined.

(** X2: with a hook that neither dispatches again nor aborts, a failure
    call aborts exactly when the hook returns (once) and otherwise not at
    all; when the hook stops, the call stops the same way, with the hook's
    events after the dispatch and nothing of its own after them. *)
Theorem abort_iff_hook_returns (h : hook) (Hq : quiet h) (m : mem) (c : call)
    (a : unwind_args) (Hd : dispatched_args m c = Some a) :
  count_abort (trace (run_call h m c)) = (if returns_normally (h a) then 1 else 0) /\
  (forall (s : stop) (tr : list event), h a = Stopped s tr ->
     run_call h m c = Stopped s (Dispatch a :: tr)).
Proof.
  destruct (quiet_counts h a Hq) as [_ Ha].
  rewrite run_call_eq, Hd, invoke_then_abort. split.
  - destruct (h a) as [x tr | s tr]; simpl in *; unfold count_abort in *; simpl.
    + rewrite filter_app, length_app, Ha. reflexivity.
    + exact Ha.
  - intros s tr Hs. rewrite Hs. reflexivity.
Qed.

Lemma abort_iff_hook_returns_witness :
  quiet (begin_unwind (fun _ => Diverges)) /\
  dispatched_args scenario_mem (CBounds s_vec 42 5 3) =
    Some (mk_unwind (bounds_arguments 5 3) s_vec 42) /\
  (count_abort (trace (run_call (begin_unwind (fun _ => Diverges)) scenario_mem
                         (CBounds s_vec 42 5 3))) =
     (if returns_normally (begin_unwind (fun _ => Diverges) (mk_unwind (bounds_arguments 5 3) s_vec 42))
      then 1 else 0) /\
   (forall (s : stop) (tr : list event),
      begin_unwind (fun _ => Diverges) (mk_unwind (bounds_arguments 5 3) s_vec 42) = Stopped s tr ->
      run_call (begin_unwind (fun _ => Diverges)) scenario_mem (CBounds s_vec 42 5 3) =
        Stopped s (Dispatch (mk_unwind (bounds_arguments 5 3) s_vec 42) :: tr))).
Proof.
  split; [apply begin_unwind_quiet|]. split; [reflexivity|].
  apply (abort_iff_hook_returns _ (begin_unwind_quiet _) scenario_mem (CBounds s_vec 42 5 3)
           _ eq_refl).
Defined.






(** X5: on the stage0 paths, pointers to null-terminated byte strings
    (no zero byte before the terminator) are read back exactly: the
    dispatched message renders to the message bytes (for [fail_]) or to
    the bounds text (for [fail_bounds_check]), the file reads as the file
    bytes, and the line is the one given. *)
Theorem stage0_reads_terminated_strings (h : hook) (m : mem) (pe pf : nat)
    (be re bf rf : list byte)
    (He : skipn pe m = be ++ x00 :: re) (Hbe : has_nul be = false)
    (Hf : skipn pf m = bf ++ x00 :: rf) (Hbf : has_nul bf = false) (line index len : N) :
  option_map (observe m) (first_dispatch (trace (fail_stage0 h m pe pf line))) =
    Some (string_of_list_byte be, string_of_list_byte bf, line) /\
  option_map (observe m) (first_dispatch (trace (fail_bounds_check_stage0 h m pf line index len))) =
    Some (("index out of bounds: the len is " ++ show_uint len ++ " but the index is "
           ++ show_uint index)%string, string_of_list_byte bf, line).
Proof.
  destruct (c_str_terminated m pe be re He Hbe) as [Ce Se].
  destruct (c_str_terminated m pf bf rf Hf Hbf) as [Cf Sf].
  rewrite (stage0_dispatch_file h m pe pf _ _ line Ce Cf),
    (stage0_bounds_file h m pf _ line index len Cf), fail__eq, fail_bounds_check_eq,
    !invoke_then_abort.
  split.
  - destruct (h _); unfold observe, render; simpl; rewrite string_append_empty, Se, Sf; reflexivity.
  - destruct (h _); unfold observe, render; simpl; rewrite !string_append_empty, Sf; reflexivity.
Qed.

Lemma stage0_reads_terminated_strings_witness :
  skipn 0 legacy_mem = list_byte_of_string "assertion failed" ++ x00 :: skipn 17 legacy_mem /\
  has_nul (list_byte_of_string "assertion failed") = false /\
  skipn 17 legacy_mem = list_byte_of_string "lib.rs" ++ x00 :: skipn 24 legacy_mem /\
  has_nul (list_byte_of_string "lib.rs") = false /\
  (option_map (observe legacy_mem) (first_dispatch (trace (fail_stage0 returning_double legacy_mem 0 17 10))) =
     Some (string_of_list_byte (list_byte_of_string "assertion failed"),
           string_of_list_byte (list_byte_of_string "lib.rs"), 10%N) /\
   option_map (observe legacy_mem)
     (first_dispatch (trace (fail_bounds_check_stage0 returning_double legacy_mem 17 10 5 3))) =
     Some (("index out of bounds: the len is " ++ show_uint 3 ++ " but the index is "
            ++ show_uint 5)%string, string_of_list_byte (list_byte_of_string "lib.rs"), 10%N)).
Proof.
  do 4 (split; [vm_compute; reflexivity|]).
  apply (stage0_reads_terminated_strings returning_double legacy_mem 0 17
           (list_byte_of_string "assertion failed") (skipn 17 legacy_mem)
           (list_byte_of_string "lib.rs") (skipn 24 legacy_mem)); vm_compute; reflexivity.
Defined.
